(** * TODO API: Users, Projects and Tasks over in-memory repositories

    A shallow embedding of [main.py]: the Pydantic models, the three
    in-memory repositories and the nine endpoint handlers, followed by the
    properties of the REST contract.

    Conventions of the embedding.
    - A [UUID] is the 128-bit integer Python's [uuid.UUID] wraps; [==] on
      UUIDs compares that integer.  [uuid.UUID] defines neither [__bool__]
      nor [__len__], so [if project_id:] tests only that the query
      parameter was given.
    - [uuid4()] is a draw from the operating system's random source.  Each
      handler invocation receives the value the draw yields as an argument
      named [uuid4]; only the three [create] methods consume it.
    - The module-level repositories are one [World]; handlers run in a state
      and exception monad in which a raised [HTTPException] keeps whatever
      state the handler had reached.
    - FastAPI answers 200 for every handler that returns normally. *)

From stdpp Require Import base numbers strings option list.

Abbreviation UUID := N (only parsing).

(** ** Models *)

Module TaskCreate.
Record t := mk {
  title : string;
  description : option string;
  completed : bool;
  project_id : UUID
}.
End TaskCreate.

Module Task.
Record t := mk {
  title : string;
  description : option string;
  completed : bool;
  project_id : UUID;
  id : UUID
}.
End Task.

Module ProjectCreate.
Record t := mk { name : string; user_id : UUID }.
End ProjectCreate.

Module Project.
Record t := mk { name : string; user_id : UUID; id : UUID }.
End Project.

Module UserCreate.
Record t := mk { name : string }.
End UserCreate.

Module User.
Record t := mk { name : string; id : UUID }.
End User.

Global Instance Task_eq_dec : EqDecision Task.t.
Proof. solve_decision. Defined.
Global Instance Project_eq_dec : EqDecision Project.t.
Proof. solve_decision. Defined.
Global Instance User_eq_dec : EqDecision User.t.
Proof. solve_decision. Defined.

(** The constructor call on the unpacked [task_data.dict()]: the fields of
    the payload, and [id] from the [default_factory]. *)
Definition Task_of (uuid4 : UUID) (d : TaskCreate.t) : Task.t :=
  Task.mk (TaskCreate.title d) (TaskCreate.description d)
          (TaskCreate.completed d) (TaskCreate.project_id d) uuid4.

Definition Project_of (uuid4 : UUID) (d : ProjectCreate.t) : Project.t :=
  Project.mk (ProjectCreate.name d) (ProjectCreate.user_id d) uuid4.

Definition User_of (uuid4 : UUID) (d : UserCreate.t) : User.t :=
  User.mk (UserCreate.name d) uuid4.

(** ** The process-wide stores and the handler monad *)

Record World := mkWorld {
  tasks : list Task.t;        (* task_repo.tasks *)
  projects : list Project.t;  (* project_repo.projects *)
  users : list User.t         (* user_repo.users *)
}.

(** The stores as the three constructors leave them. *)
Definition init : World := mkWorld [] [] [].

Record HTTPException := mkHTTPException {
  status_code : nat;
  detail : string
}.

Definition Handler (A : Type) : Type := World → (HTTPException + A) * World.

Global Instance Handler_ret : MRet Handler := λ A x w, (inr x, w).
Global Instance Handler_bind : MBind Handler := λ A B f m w,
  match m w with
  | (inl e, w') => (inl e, w')
  | (inr x, w') => f x w'
  end.

Definition raise {A} (e : HTTPException) : Handler A := λ w, (inl e, w).
Definition gets {A} (f : World → A) : Handler A := λ w, (inr (f w), w).
Definition set_tasks (l : list Task.t) : Handler () :=
  λ w, (inr (), mkWorld l (projects w) (users w)).
Definition set_projects (l : list Project.t) : Handler () :=
  λ w, (inr (), mkWorld (tasks w) l (users w)).
Definition set_users (l : list User.t) : Handler () :=
  λ w, (inr (), mkWorld (tasks w) (projects w) l).

(** ** In-memory repositories *)

Module TaskRepository.
Definition list : Handler (list Task.t) := gets tasks.

(* for task in self.tasks: if task.id == task_id: return task *)
Definition get (task_id : UUID) : Handler (option Task.t) :=
  l ← gets tasks;
  mret (snd <$> list_find (λ task, Task.id task = task_id) l).

Definition create (uuid4 : UUID) (task_data : TaskCreate.t) : Handler Task.t :=
  let task := Task_of uuid4 task_data in
  l ← gets tasks;
  _ ← set_tasks (l ++ [task]);
  mret task.

(* for i, task in enumerate(self.tasks):
     if task.id == task_id: self.tasks[i] = new_task; return new_task *)
Definition update (task_id : UUID) (new_task : Task.t) : Handler (option Task.t) :=
  l ← gets tasks;
  match list_find (λ task, Task.id task = task_id) l with
  | Some (i, _) => _ ← set_tasks (<[i := new_task]> l); mret (Some new_task)
  | None => mret None
  end.

(* for i, task in enumerate(self.tasks):
     if task.id == task_id: del self.tasks[i]; return True *)
Definition delete (task_id : UUID) : Handler bool :=
  l ← gets tasks;
  match list_find (λ task, Task.id task = task_id) l with
  | Some (i, _) => _ ← set_tasks (base.delete i l); mret true
  | None => mret false
  end.
End TaskRepository.

Module ProjectRepository.
Definition list : Handler (list Project.t) := gets projects.

Definition create (uuid4 : UUID) (project_data : ProjectCreate.t) : Handler Project.t :=
  let project := Project_of uuid4 project_data in
  l ← gets projects;
  _ ← set_projects (l ++ [project]);
  mret project.
End ProjectRepository.

Module UserRepository.
Definition list : Handler (list User.t) := gets users.

Definition create (uuid4 : UUID) (user_data : UserCreate.t) : Handler User.t :=
  let user := User_of uuid4 user_data in
  l ← gets users;
  _ ← set_users (l ++ [user]);
  mret user.
End UserRepository.

(** ** Endpoints *)

Definition project_exists (project_id : UUID) (ps : list Project.t) : bool :=
  existsb (λ p, bool_decide (Project.id p = project_id)) ps.

Definition user_exists (user_id : UUID) (us : list User.t) : bool :=
  existsb (λ u, bool_decide (User.id u = user_id)) us.

Definition get_tasks (project_id : option UUID) : Handler (list Task.t) :=
  tasks ← TaskRepository.list;
  match project_id with
  | Some pid => mret (filter (λ t, Task.project_id t = pid) tasks)
  | None => mret tasks
  end.

Definition create_task (uuid4 : UUID) (task : TaskCreate.t) : Handler Task.t :=
  ps ← gets projects;
  if negb (project_exists (TaskCreate.project_id task) ps)
  then raise (mkHTTPException 400 "Project does not exist")
  else TaskRepository.create uuid4 task.

Definition get_task (task_id : UUID) : Handler Task.t :=
  task ← TaskRepository.get task_id;
  match task with
  | None => raise (mkHTTPException 404 "Task not found")
  | Some task => mret task
  end.

Definition update_task (task_id : UUID) (task : Task.t) : Handler Task.t :=
  ps ← gets projects;
  if negb (project_exists (Task.project_id task) ps)
  then raise (mkHTTPException 400 "Project does not exist")
  else
    updated ← TaskRepository.update task_id task;
    match updated with
    | None => raise (mkHTTPException 404 "Task not found")
    | Some updated => mret updated
    end.

Definition delete_task (task_id : UUID) : Handler string :=
  deleted ← TaskRepository.delete task_id;
  if negb deleted
  then raise (mkHTTPException 404 "Task not found")
  else mret "Task deleted".

Definition get_projects (user_id : option UUID) : Handler (list Project.t) :=
  projects ← ProjectRepository.list;
  match user_id with
  | Some uid => mret (filter (λ p, Project.user_id p = uid) projects)
  | None => mret projects
  end.

Definition create_project (uuid4 : UUID) (project : ProjectCreate.t) : Handler Project.t :=
  us ← gets users;
  if negb (user_exists (ProjectCreate.user_id project) us)
  then raise (mkHTTPException 400 "User does not exist")
  else ProjectRepository.create uuid4 project.

Definition get_users : Handler (list User.t) := UserRepository.list.

Definition create_user (uuid4 : UUID) (user : UserCreate.t) : Handler User.t :=
  UserRepository.create uuid4 user.

(** ** The routing table *)

Inductive Request :=
| GET_tasks (project_id : option UUID)
| POST_tasks (task : TaskCreate.t)
| GET_task (task_id : UUID)
| PUT_task (task_id : UUID) (task : Task.t)
| DELETE_task (task_id : UUID)
| GET_projects (user_id : option UUID)
| POST_projects (project : ProjectCreate.t)
| GET_users
| POST_users (user : UserCreate.t).

(** Response bodies before JSON serialisation; [MessageBody m] is the
    object with the single key [message]. *)
Inductive Body :=
| TaskBody (t : Task.t)
| TasksBody (l : list Task.t)
| ProjectBody (p : Project.t)
| ProjectsBody (l : list Project.t)
| UserBody (u : User.t)
| UsersBody (l : list User.t)
| MessageBody (message : string).

Definition Response : Type := HTTPException + Body.

Definition status (r : Response) : nat :=
  match r with
  | inl e => status_code e
  | inr _ => 200
  end.

Definition respond {A} (k : A → Body) (h : Handler A) : World → Response * World :=
  λ w, match h w with
       | (inl e, w') => (inl e, w')
       | (inr x, w') => (inr (k x), w')
       end.

Definition app (uuid4 : UUID) (r : Request) : World → Response * World :=
  match r with
  | GET_tasks project_id => respond TasksBody (get_tasks project_id)
  | POST_tasks task => respond TaskBody (create_task uuid4 task)
  | GET_task task_id => respond TaskBody (get_task task_id)
  | PUT_task task_id task => respond TaskBody (update_task task_id task)
  | DELETE_task task_id => respond MessageBody (delete_task task_id)
  | GET_projects user_id => respond ProjectsBody (get_projects user_id)
  | POST_projects project => respond ProjectBody (create_project uuid4 project)
  | GET_users => respond UsersBody get_users
  | POST_users user => respond UserBody (create_user uuid4 user)
  end.

(** The state after serving a sequence of requests, each paired with the
    value its [uuid4()] draw yields. *)
Fixpoint run (trace : list (UUID * Request)) (w : World) : World :=
  match trace with
  | [] => w
  | (uuid4, r) :: trace => run trace (app uuid4 r w).2
  end.

(** ** Vocabulary of the contract *)

Definition task_known (task_id : UUID) (w : World) : Prop :=
  ∃ t, t ∈ tasks w ∧ Task.id t = task_id.

Definition project_known (project_id : UUID) (w : World) : Prop :=
  ∃ p, p ∈ projects w ∧ Project.id p = project_id.

Definition user_known (user_id : UUID) (w : World) : Prop :=
  ∃ u, u ∈ users w ∧ User.id u = user_id.

(** Every stored cross-entity reference names a stored entity. *)
Definition referential_integrity (w : World) : Prop :=
  (∀ t, t ∈ tasks w → project_known (Task.project_id t) w) ∧
  (∀ p, p ∈ projects w → user_known (Project.user_id p) w).

(** Identifiers are pairwise distinct within each collection. *)
Definition unique_ids (w : World) : Prop :=
  NoDup (Task.id <$> tasks w) ∧
  NoDup (Project.id <$> projects w) ∧
  NoDup (User.id <$> users w).

(** The draw of [uuid4()] differs from every identifier held by the
    collection the request appends to. *)
Definition draw_fresh (uuid4 : UUID) (r : Request) (w : World) : Prop :=
  match r with
  | POST_tasks _ => uuid4 ∉ Task.id <$> tasks w
  | POST_projects _ => uuid4 ∉ Project.id <$> projects w
  | POST_users _ => uuid4 ∉ User.id <$> users w
  | _ => True
  end.

(** The body of a PUT carries the identifier of the path. *)
Definition keeps_path_id (r : Request) : Prop :=
  match r with
  | PUT_task task_id task => Task.id task = task_id
  | _ => True
  end.

Fixpoint disciplined (trace : list (UUID * Request)) (w : World) : Prop :=
  match trace with
  | [] => True
  | (uuid4, r) :: trace =>
      draw_fresh uuid4 r w ∧ keeps_path_id r ∧
      disciplined trace (app uuid4 r w).2
  end.

(** How one request may change the sequence of stored Task identifiers:
    not at all, by one identifier appended, or by one position removed. *)
Inductive ids_evolve (uuid4 : UUID) (ids : list UUID) : list UUID → Prop :=
| ids_same : ids_evolve uuid4 ids ids
| ids_appended : ids_evolve uuid4 ids (ids ++ [uuid4])
| ids_removed i : ids_evolve uuid4 ids (delete i ids).

(** The Users a sequence of requests creates, in request order. *)
Definition created_users (trace : list (UUID * Request)) : list User.t :=
  omap (λ '(uuid4, r),
          match r with
          | POST_users user => Some (User_of uuid4 user)
          | _ => None
          end) trace.

(** ** A concrete scenario

    Identifiers have the version-4 layout [uuid4()] produces; [v4 n] is
    00000000-0000-4000-8000-00000000000n for a one-digit [n]. *)

Definition v4 (n : N) : UUID := (0x00000000000040008000000000000000 + n)%N.

Definition scenario : list (UUID * Request) :=
  [ (v4 1, POST_users (UserCreate.mk "Ann"));
    (v4 2, POST_projects (ProjectCreate.mk "P" (v4 1)));
    (v4 3, POST_tasks (TaskCreate.mk "T" None false (v4 2)));
    (v4 4, POST_tasks (TaskCreate.mk "T2" (Some "second") false (v4 2))) ].

Definition ann : User.t := User.mk "Ann" (v4 1).
Definition project_P : Project.t := Project.mk "P" (v4 1) (v4 2).
Definition task_T : Task.t := Task.mk "T" None false (v4 2) (v4 3).
Definition task_T2 : Task.t := Task.mk "T2" (Some "second") false (v4 2) (v4 4).

Definition sample : World := mkWorld [task_T; task_T2] [project_P] [ann].

(** A full Task body whose [id] is that of [task_T2], to be sent to the
    path of [task_T]. *)
Definition body_T2_id : Task.t := Task.mk "T" None true (v4 2) (v4 4).

(** A full Task body naming a Project that was never created. *)
Definition body_no_project : Task.t := Task.mk "T" None false (v4 9) (v4 3).

(** The body of [task_T] with [completed] set, for its own path. *)
Definition body_T_done : Task.t := Task.mk "T" None true (v4 2) (v4 3).

(** The stores after a PUT has given both Tasks the same id. *)
Definition clashing : World :=
  mkWorld [body_T2_id; task_T2] [project_P] [ann].

(** The requests served by the four GET routes. *)
Definition reads (r : Request) : bool :=
  match r with
  | GET_tasks _ | GET_task _ | GET_projects _ | GET_users => true
  | _ => false
  end.

(** A second Project of [ann], not part of the scenario. *)
Definition project_Q : ProjectCreate.t := ProjectCreate.mk "Q" (v4 1).

(** A Task payload for [project_P]. *)
Definition payload_T3 : TaskCreate.t := TaskCreate.mk "T3" None false (v4 2).

(** Stores with Tasks of two Projects, interleaved. *)
Definition project_P2 : Project.t := Project.mk "P2" (v4 1) (v4 6).
Definition task_U : Task.t := Task.mk "U" None false (v4 6) (v4 7).
Definition mixed : World :=
  mkWorld [task_T; task_U; task_T2] [project_P; project_P2] [ann].

(** Deciding concrete facts about identifiers. *)
Ltac uuid_neq :=
  let H := fresh in intros H; vm_compute in H; discriminate H.

Ltac uuid_not_in :=
  let Hin := fresh "Hin" in
  intros Hin;
  repeat (apply elem_of_cons in Hin as [Hin | Hin]; [revert Hin; uuid_neq|]);
  by apply not_elem_of_nil in Hin.

(** * Properties *)

(** ** The linear scans *)

Section scans.
Context {A : Type} (P : A → Prop) `{!∀ x, Decision (P x)}.

(** The first match of the scan splits the sequence. *)
Lemma list_find_split (l : list A) i x :
  list_find P l = Some (i, x) →
  ∃ pre post, l = pre ++ x :: post ∧ length pre = i ∧
              Forall (λ y, ¬ P y) pre ∧ P x.
Proof.
  intros (Hi & HP & Hbefore)%list_find_Some.
  exists (take i l), (drop (S i) l). split_and!.
  - by rewrite take_drop_middle.
  - apply length_take_le. apply lookup_lt_Some in Hi. lia.
  - apply Forall_lookup. intros j y Hj.
    pose proof (lookup_lt_Some _ _ _ Hj) as Hlen.
    rewrite length_take in Hlen.
    rewrite lookup_take_lt in Hj by lia.
    eapply Hbefore; [done | lia].
  - done.
Qed.

Lemma list_find_middle (pre post : list A) x :
  Forall (λ y, ¬ P y) pre → P x →
  list_find P (pre ++ x :: post) = Some (length pre, x).
Proof.
  intros Hpre Hx. induction Hpre as [|y pre Hy _ IH]; simpl.
  - by rewrite decide_True.
  - rewrite decide_False by done. by rewrite IH.
Qed.

Lemma insert_middle (pre post : list A) x y :
  <[length pre := y]> (pre ++ x :: post) = pre ++ y :: post.
Proof.
  rewrite insert_app_r_alt by lia. by rewrite Nat.sub_diag.
Qed.
End scans.

Lemma project_exists_spec project_id ps :
  project_exists project_id ps = true ↔
  ∃ p, p ∈ ps ∧ Project.id p = project_id.
Proof.
  unfold project_exists. rewrite existsb_exists. split.
  - intros (p & Hin & Heq). exists p. split; [by apply list_elem_of_In|].
    by apply bool_decide_eq_true in Heq.
  - intros (p & Hin & Heq). exists p. split; [by apply list_elem_of_In|].
    by apply bool_decide_eq_true.
Qed.

Lemma user_exists_spec user_id us :
  user_exists user_id us = true ↔ ∃ u, u ∈ us ∧ User.id u = user_id.
Proof.
  unfold user_exists. rewrite existsb_exists. split.
  - intros (u & Hin & Heq). exists u. split; [by apply list_elem_of_In|].
    by apply bool_decide_eq_true in Heq.
  - intros (u & Hin & Heq). exists u. split; [by apply list_elem_of_In|].
    by apply bool_decide_eq_true.
Qed.

Lemma project_exists_false project_id ps :
  project_exists project_id ps = false ↔
  ¬ ∃ p, p ∈ ps ∧ Project.id p = project_id.
Proof. rewrite <- project_exists_spec. by destruct (project_exists _ _). Qed.

Lemma user_exists_false user_id us :
  user_exists user_id us = false ↔ ¬ ∃ u, u ∈ us ∧ User.id u = user_id.
Proof. rewrite <- user_exists_spec. by destruct (user_exists _ _). Qed.

(** ** What each repository method and handler computes *)

Lemma update_eq task_id new_task w :
  TaskRepository.update task_id new_task w =
  match list_find (λ task, Task.id task = task_id) (tasks w) with
  | Some (i, _) =>
      (inr (Some new_task),
       mkWorld (<[i := new_task]> (tasks w)) (projects w) (users w))
  | None => (inr None, w)
  end.
Proof.
  unfold TaskRepository.update, mbind, Handler_bind, gets. simpl.
  by destruct (list_find _ _) as [[i t]|].
Qed.

Lemma delete_eq task_id w :
  TaskRepository.delete task_id w =
  match list_find (λ task, Task.id task = task_id) (tasks w) with
  | Some (i, _) =>
      (inr true, mkWorld (delete i (tasks w)) (projects w) (users w))
  | None => (inr false, w)
  end.
Proof.
  unfold TaskRepository.delete, mbind, Handler_bind, gets. simpl.
  by destruct (list_find _ _) as [[i t]|].
Qed.

Lemma update_task_eq task_id task w :
  update_task task_id task w =
  if project_exists (Task.project_id task) (projects w)
  then match list_find (λ t, Task.id t = task_id) (tasks w) with
       | Some (i, _) =>
           (inr task, mkWorld (<[i := task]> (tasks w)) (projects w) (users w))
       | None => (inl (mkHTTPException 404 "Task not found"), w)
       end
  else (inl (mkHTTPException 400 "Project does not exist"), w).
Proof.
  unfold update_task, mbind, Handler_bind, gets. simpl.
  destruct (project_exists _ _); simpl; [|done].
  pose proof (update_eq task_id task w) as Hupd.
  unfold mbind, Handler_bind in Hupd. rewrite Hupd.
  by destruct (list_find _ _) as [[i t]|].
Qed.

Lemma delete_task_eq task_id w :
  delete_task task_id w =
  match list_find (λ t, Task.id t = task_id) (tasks w) with
  | Some (i, _) =>
      (inr "Task deleted", mkWorld (delete i (tasks w)) (projects w) (users w))
  | None => (inl (mkHTTPException 404 "Task not found"), w)
  end.
Proof.
  unfold delete_task, mbind, Handler_bind.
  pose proof (delete_eq task_id w) as Hdel.
  unfold mbind, Handler_bind in Hdel. rewrite Hdel.
  by destruct (list_find _ _) as [[i t]|].
Qed.

Lemma create_task_eq uuid4 task w :
  create_task uuid4 task w =
  if project_exists (TaskCreate.project_id task) (projects w)
  then (inr (Task_of uuid4 task),
        mkWorld (tasks w ++ [Task_of uuid4 task]) (projects w) (users w))
  else (inl (mkHTTPException 400 "Project does not exist"), w).
Proof.
  unfold create_task, mbind, Handler_bind, gets. simpl.
  by destruct (project_exists _ _).
Qed.

Lemma create_project_eq uuid4 project w :
  create_project uuid4 project w =
  if user_exists (ProjectCreate.user_id project) (users w)
  then (inr (Project_of uuid4 project),
        mkWorld (tasks w) (projects w ++ [Project_of uuid4 project]) (users w))
  else (inl (mkHTTPException 400 "User does not exist"), w).
Proof.
  unfold create_project, mbind, Handler_bind, gets. simpl.
  by destruct (user_exists _ _).
Qed.

Lemma create_user_eq uuid4 user w :
  create_user uuid4 user w =
  (inr (User_of uuid4 user),
   mkWorld (tasks w) (projects w) (users w ++ [User_of uuid4 user])).
Proof. done. Qed.

Lemma get_task_eq task_id w :
  get_task task_id w =
  match list_find (λ t, Task.id t = task_id) (tasks w) with
  | Some (_, t) => (inr t, w)
  | None => (inl (mkHTTPException 404 "Task not found"), w)
  end.
Proof.
  unfold get_task, TaskRepository.get, mbind, Handler_bind, gets. simpl.
  by destruct (list_find _ _) as [[i t]|].
Qed.

Lemma get_tasks_eq project_id w :
  get_tasks project_id w =
  (inr (match project_id with
        | Some pid => filter (λ t, Task.project_id t = pid) (tasks w)
        | None => tasks w
        end), w).
Proof. by destruct project_id. Qed.

Lemma get_projects_eq user_id w :
  get_projects user_id w =
  (inr (match user_id with
        | Some uid => filter (λ p, Project.user_id p = uid) (projects w)
        | None => projects w
        end), w).
Proof. by destruct user_id. Qed.

Lemma get_users_eq w : get_users w = (inr (users w), w).
Proof. done. Qed.


Lemma app_DELETE_task uuid4 task_id w :
  app uuid4 (DELETE_task task_id) w =
  match list_find (λ t, Task.id t = task_id) (tasks w) with
  | Some (i, _) =>
      (inr (MessageBody "Task deleted"),
       mkWorld (delete i (tasks w)) (projects w) (users w))
  | None => (inl (mkHTTPException 404 "Task not found"), w)
  end.
Proof.
  simpl. unfold respond. rewrite delete_task_eq.
  by destruct (list_find _ _) as [[i t]|].
Qed.

Lemma app_PUT_task uuid4 task_id task w :
  app uuid4 (PUT_task task_id task) w =
  if project_exists (Task.project_id task) (projects w)
  then match list_find (λ t, Task.id t = task_id) (tasks w) with
       | Some (i, _) =>
           (inr (TaskBody task),
            mkWorld (<[i := task]> (tasks w)) (projects w) (users w))
       | None => (inl (mkHTTPException 404 "Task not found"), w)
       end
  else (inl (mkHTTPException 400 "Project does not exist"), w).
Proof.
  simpl. unfold respond. rewrite update_task_eq.
  destruct (project_exists _ _); [|done].
  by destruct (list_find _ _) as [[i t]|].
Qed.

Lemma app_POST_tasks uuid4 task w :
  app uuid4 (POST_tasks task) w =
  if project_exists (TaskCreate.project_id task) (projects w)
  then (inr (TaskBody (Task_of uuid4 task)),
        mkWorld (tasks w ++ [Task_of uuid4 task]) (projects w) (users w))
  else (inl (mkHTTPException 400 "Project does not exist"), w).
Proof.
  simpl. unfold respond. rewrite create_task_eq.
  by destruct (project_exists _ _).
Qed.

Lemma app_POST_projects uuid4 project w :
  app uuid4 (POST_projects project) w =
  if user_exists (ProjectCreate.user_id project) (users w)
  then (inr (ProjectBody (Project_of uuid4 project)),
        mkWorld (tasks w) (projects w ++ [Project_of uuid4 project]) (users w))
  else (inl (mkHTTPException 400 "User does not exist"), w).
Proof.
  simpl. unfold respond. rewrite create_project_eq.
  by destruct (user_exists _ _).
Qed.

Lemma app_POST_users uuid4 user w :
  app uuid4 (POST_users user) w =
  (inr (UserBody (User_of uuid4 user)),
   mkWorld (tasks w) (projects w) (users w ++ [User_of uuid4 user])).
Proof. done. Qed.

Lemma app_GET_projects uuid4 user_id w :
  app uuid4 (GET_projects user_id) w =
  (inr (ProjectsBody
          (match user_id with
           | Some uid => filter (λ p, Project.user_id p = uid) (projects w)
           | None => projects w
           end)), w).
Proof. simpl. unfold respond. by rewrite get_projects_eq. Qed.

Lemma app_GET_stable uuid4 r w :
  match r with
  | GET_tasks _ | GET_task _ | GET_projects _ | GET_users => (app uuid4 r w).2 = w
  | _ => True
  end.
Proof.
  destruct r; try done; simpl; unfold respond.
  - by rewrite get_tasks_eq.
  - rewrite get_task_eq. by destruct (list_find _ _) as [[i t]|].
  - by rewrite get_projects_eq.
Qed.

(** ** Frame of [delete] and [update] *)

Section no_match.
Context {A : Type} (P : A → Prop) `{!∀ x, Decision (P x)}.

Lemma filter_none (l : list A) : Forall (λ y, ¬ P y) l → filter P l = [].
Proof.
  induction 1 as [|y l Hy _ IH]; [done|].
  by rewrite filter_cons_False.
Qed.

Lemma filter_none_inv (l : list A) : filter P l = [] → Forall (λ y, ¬ P y) l.
Proof.
  intros Hnil. apply Forall_forall. intros y Hy HP.
  by eapply filter_nil_not_elem_of.
Qed.

Lemma list_find_none (l : list A) :
  Forall (λ y, ¬ P y) l → list_find P l = None.
Proof. intros. by apply list_find_None. Qed.
End no_match.

(** C10. [TaskRepository.delete] removes, and [TaskRepository.update]
    replaces, only the first Task whose id equals [task_id]: the store is
    split around that Task as [pre ++ t :: post] with no match in [pre];
    [delete] leaves [pre ++ post], [update] leaves [pre ++ new_task :: post].
    When no Task matches, both leave the store as it is.  The other two
    stores are never touched. *)
Theorem delete_update_touch_first_match_only
    (w : World) (task_id : UUID) (new_task : Task.t) :
  (Forall (λ t, Task.id t ≠ task_id) (tasks w) ∧
   TaskRepository.delete task_id w = (inr false, w) ∧
   TaskRepository.update task_id new_task w = (inr None, w))
  ∨
  (∃ pre t post,
     tasks w = pre ++ t :: post ∧
     Forall (λ x, Task.id x ≠ task_id) pre ∧
     Task.id t = task_id ∧
     TaskRepository.delete task_id w =
       (inr true, mkWorld (pre ++ post) (projects w) (users w)) ∧
     TaskRepository.update task_id new_task w =
       (inr (Some new_task),
        mkWorld (pre ++ new_task :: post) (projects w) (users w))).
Proof.
  rewrite delete_eq, update_eq.
  destruct (list_find _ (tasks w)) as [[i t]|] eqn:Hfind.
  - right. apply list_find_split in Hfind as (pre & post & Hl & Hi & Hpre & Ht).
    exists pre, t, post. subst i. rewrite Hl.
    rewrite delete_middle, insert_middle. by split_and!.
  - left. by apply list_find_None in Hfind.
Qed.

(** With two Tasks under one id, only the first is removed or replaced. *)
Example delete_first_of_two :
  TaskRepository.delete (v4 4) clashing =
    (inr true, mkWorld [task_T2] [project_P] [ann]).
Proof. reflexivity. Qed.

Example update_first_of_two :
  TaskRepository.update (v4 4) body_T_done clashing =
    (inr (Some body_T_done), mkWorld [body_T_done; task_T2] [project_P] [ann]).
Proof. reflexivity. Qed.

(** ** The scenario *)

Lemma scenario_runs : run scenario init = sample.
Proof. reflexivity. Qed.

Lemma sample_task_known : task_known (v4 3) sample.
Proof. exists task_T. split; [apply list_elem_of_here | reflexivity]. Qed.

Lemma sample_project_known : project_known (v4 2) sample.
Proof. exists project_P. split; [apply list_elem_of_here | reflexivity]. Qed.

Lemma sample_task_unknown : ¬ task_known (v4 7) sample.
Proof.
  intros (t & Hin & Hid). simpl in Hin.
  apply elem_of_cons in Hin as [-> | Hin]; [revert Hid; uuid_neq|].
  apply elem_of_cons in Hin as [-> | Hin]; [revert Hid; uuid_neq|].
  by apply not_elem_of_nil in Hin.
Qed.

Lemma sample_project_unknown : ¬ project_known (v4 9) sample.
Proof.
  intros (p & Hin & Hid). simpl in Hin.
  apply elem_of_cons in Hin as [-> | Hin]; [revert Hid; uuid_neq|].
  by apply not_elem_of_nil in Hin.
Qed.

(** ** Replacing a Task *)

(** C3. When a Task with id [task_id] is stored and the payload's
    [project_id] names a stored Project, [update] (and PUT through it)
    overwrites the first slot whose Task has that id with exactly the
    payload, whatever the payload's own [id] is, leaves every other slot
    alone and returns the payload; when no stored Task has id [task_id],
    [update] returns [None] and changes nothing. *)
Theorem update_stores_payload_as_given
    (w : World) (task_id : UUID) (payload : Task.t) :
  (task_known task_id w →
   project_known (Task.project_id payload) w →
   ∃ i old,
     tasks w !! i = Some old ∧ Task.id old = task_id ∧
     (∀ j t, tasks w !! j = Some t → j < i → Task.id t ≠ task_id) ∧
     TaskRepository.update task_id payload w =
       (inr (Some payload),
        mkWorld (<[i := payload]> (tasks w)) (projects w) (users w)) ∧
     update_task task_id payload w =
       (inr payload,
        mkWorld (<[i := payload]> (tasks w)) (projects w) (users w)) ∧
     <[i := payload]> (tasks w) !! i = Some payload ∧
     (∀ j, j ≠ i → <[i := payload]> (tasks w) !! j = tasks w !! j)) ∧
  (¬ task_known task_id w →
   TaskRepository.update task_id payload w = (inr None, w)).
Proof.
  split.
  - intros (t & Hin & Hid) Hproj.
    apply project_exists_spec in Hproj.
    destruct (list_find_elem_of (λ x, Task.id x = task_id) (tasks w) t Hin Hid)
      as [[i old] Hfind].
    pose proof Hfind as (Hi & Hold & Hbefore)%list_find_Some.
    exists i, old. rewrite update_eq, update_task_eq, Hproj, Hfind.
    split_and!; try done.
    + apply list_lookup_insert_eq. by eapply lookup_lt_Some.
    + intros j Hj. by apply list_lookup_insert_ne.
  - intros Hnone. rewrite update_eq.
    destruct (list_find _ (tasks w)) as [[i t]|] eqn:Hfind; [|done].
    apply list_find_Some in Hfind as (Hi & Hid & _).
    destruct Hnone. exists t. split; [|done].
    by eapply list_elem_of_lookup_2.
Qed.

Lemma update_stores_payload_as_given_witness :
  (∃ i old,
     tasks sample !! i = Some old ∧ Task.id old = v4 3 ∧
     (∀ j t, tasks sample !! j = Some t → j < i → Task.id t ≠ v4 3) ∧
     TaskRepository.update (v4 3) body_T2_id sample =
       (inr (Some body_T2_id),
        mkWorld (<[i := body_T2_id]> (tasks sample))
                (projects sample) (users sample)) ∧
     update_task (v4 3) body_T2_id sample =
       (inr body_T2_id,
        mkWorld (<[i := body_T2_id]> (tasks sample))
                (projects sample) (users sample)) ∧
     <[i := body_T2_id]> (tasks sample) !! i = Some body_T2_id ∧
     (∀ j, j ≠ i → <[i := body_T2_id]> (tasks sample) !! j = tasks sample !! j)) ∧
  TaskRepository.update (v4 7) body_T2_id sample = (inr None, sample).
Proof.
  split.
  - apply (proj1 (update_stores_payload_as_given sample (v4 3) body_T2_id)).
    + exact sample_task_known.
    + exact sample_project_known.
  - apply (proj2 (update_stores_payload_as_given sample (v4 7) body_T2_id)).
    exact sample_task_unknown.
Defined.

(** The stored record's [id] then differs from the path that reaches it. *)
Example update_diverging_id :
  update_task (v4 3) body_T2_id sample =
    (inr body_T2_id, mkWorld [body_T2_id; task_T2] [project_P] [ann]) ∧
  Task.id body_T2_id ≠ v4 3.
Proof. split; [reflexivity | uuid_neq]. Qed.

(** ** Deleting a Task *)

(** C8. In a state holding exactly one Task with the given id, DELETE
    answers 200 with the message [Task deleted] and removes it; a second
    DELETE of the same id answers 404 and leaves that state as it is. *)
Theorem delete_twice (w : World) (task_id u1 u2 : UUID) :
  length (filter (λ t, Task.id t = task_id) (tasks w)) = 1 →
  let first := app u1 (DELETE_task task_id) w in
  let second := app u2 (DELETE_task task_id) first.2 in
  first.1 = inr (MessageBody "Task deleted") ∧
  status first.1 = 200 ∧
  ¬ task_known task_id first.2 ∧
  second.1 = inl (mkHTTPException 404 "Task not found") ∧
  status second.1 = 404 ∧
  second.2 = first.2.
Proof.
  intros Hone first second. subst first second.
  rewrite (app_DELETE_task u1).
  destruct (list_find _ (tasks w)) as [[i t]|] eqn:Hfind.
  - apply list_find_split in Hfind as (pre & post & Hl & <- & Hpre & Ht).
    rewrite Hl in Hone |- *. rewrite delete_middle.
    rewrite filter_app, filter_cons_True in Hone by done.
    rewrite (filter_none (λ t, Task.id t = task_id) pre) in Hone by done. simpl in Hone.
    assert (Hpost : Forall (λ x, Task.id x ≠ task_id) post).
    { apply (filter_none_inv (λ x, Task.id x = task_id)).
      apply nil_length_inv. lia. }
    assert (Hgone : Forall (λ x, Task.id x ≠ task_id) (pre ++ post))
      by by apply Forall_app.
    rewrite (app_DELETE_task u2). simpl.
    rewrite (list_find_none (λ t, Task.id t = task_id) (pre ++ post)) by done. simpl.
    split_and!; try done.
    intros (x & Hin & Hid). simpl in Hin.
    by eapply (proj1 (Forall_forall _ _) Hgone).
  - apply list_find_None in Hfind.
    rewrite (filter_none (λ t, Task.id t = task_id) (tasks w)) in Hone by done. done.
Qed.

Lemma delete_twice_witness :
  let first := app (v4 5) (DELETE_task (v4 3)) sample in
  let second := app (v4 6) (DELETE_task (v4 3)) first.2 in
  first.1 = inr (MessageBody "Task deleted") ∧
  status first.1 = 200 ∧
  ¬ task_known (v4 3) first.2 ∧
  second.1 = inl (mkHTTPException 404 "Task not found") ∧
  status second.1 = 404 ∧
  second.2 = first.2.
Proof. apply (delete_twice sample (v4 3) (v4 5) (v4 6)). reflexivity. Defined.

(** ** Errors of PUT *)

(** C4 as stated does not hold: on the empty stores, PUT to an id that no
    Task has, with a body naming an unknown Project, answers 400 and not
    404, because the Project check runs before the Task lookup. *)
Lemma put_unknown_task_and_project_is_400 :
  ¬ task_known (v4 3) init ∧
  app (v4 5) (PUT_task (v4 3) body_no_project) init =
    (inl (mkHTTPException 400 "Project does not exist"), init) ∧
  status (app (v4 5) (PUT_task (v4 3) body_no_project) init).1 ≠ 404.
Proof.
  split_and!.
  - intros (t & Hin & _). simpl in Hin. by apply not_elem_of_nil in Hin.
  - reflexivity.
  - simpl. lia.
Qed.

(** C4, amended. A PUT whose body names no stored Project answers 400 and
    leaves the whole state unchanged, whether or not a Task with the
    addressed id is stored; a PUT whose body names a stored Project and
    whose [task_id] no stored Task has answers 404, also with the state
    unchanged. *)
Theorem put_errors (w : World) (uuid4 task_id : UUID) (payload : Task.t) :
  (¬ project_known (Task.project_id payload) w →
   app uuid4 (PUT_task task_id payload) w =
     (inl (mkHTTPException 400 "Project does not exist"), w)) ∧
  (project_known (Task.project_id payload) w →
   ¬ task_known task_id w →
   app uuid4 (PUT_task task_id payload) w =
     (inl (mkHTTPException 404 "Task not found"), w)).
Proof.
  rewrite app_PUT_task. split.
  - intros Hnone%project_exists_false. by rewrite Hnone.
  - intros Hproj%project_exists_spec Hnone. rewrite Hproj.
    destruct (list_find _ (tasks w)) as [[i t]|] eqn:Hfind; [|done].
    apply list_find_Some in Hfind as (Hi & Hid & _).
    destruct Hnone. exists t. split; [|done].
    by eapply list_elem_of_lookup_2.
Qed.

Lemma put_errors_witness :
  app (v4 5) (PUT_task (v4 3) body_no_project) sample =
    (inl (mkHTTPException 400 "Project does not exist"), sample) ∧
  app (v4 5) (PUT_task (v4 7) body_T2_id) sample =
    (inl (mkHTTPException 404 "Task not found"), sample).
Proof.
  split.
  - apply (proj1 (put_errors sample (v4 5) (v4 3) body_no_project)).
    exact sample_project_unknown.
  - apply (proj2 (put_errors sample (v4 5) (v4 7) body_T2_id)).
    + exact sample_project_known.
    + exact sample_task_unknown.
Defined.

(** ** The Project check on Task writes *)






(** ** Invariants along a run *)

Lemma run_invariant (I : World → Prop) :
  (∀ uuid4 r w, I w → I (app uuid4 r w).2) →
  ∀ trace w, I w → I (run trace w).
Proof.
  intros Hstep trace. induction trace as [|[uuid4 r] trace IH]; intros w Hw.
  - done.
  - simpl. apply IH. by apply Hstep.
Qed.

Lemma run_disciplined_invariant (I : World → Prop) :
  (∀ uuid4 r w, draw_fresh uuid4 r w → keeps_path_id r → I w →
                I (app uuid4 r w).2) →
  ∀ trace w, disciplined trace w → I w → I (run trace w).
Proof.
  intros Hstep trace. induction trace as [|[uuid4 r] trace IH]; intros w Hd Hw.
  - done.
  - destruct Hd as (Hfresh & Hkeep & Hd). simpl. apply IH; [done|].
    by apply Hstep.
Qed.

(** What a request leaves in each store. *)
Lemma app_stores uuid4 r w :
  let w' := (app uuid4 r w).2 in
  (users w' = users w ∨
   ∃ user, r = POST_users user ∧ users w' = users w ++ [User_of uuid4 user]) ∧
  (projects w' = projects w ∨
   ∃ project, r = POST_projects project ∧
     user_known (ProjectCreate.user_id project) w ∧
     projects w' = projects w ++ [Project_of uuid4 project]) ∧
  (tasks w' = tasks w ∨
   (∃ task, r = POST_tasks task ∧
      project_known (TaskCreate.project_id task) w ∧
      tasks w' = tasks w ++ [Task_of uuid4 task]) ∨
   (∃ task_id task i old, r = PUT_task task_id task ∧
      project_known (Task.project_id task) w ∧
      tasks w !! i = Some old ∧ Task.id old = task_id ∧
      tasks w' = <[i := task]> (tasks w)) ∨
   (∃ task_id i, r = DELETE_task task_id ∧ tasks w' = delete i (tasks w))).
Proof.
  destruct r as [pid|task|tid|tid task|tid|uid|project| |user]; intros w'; subst w'.
  - rewrite (app_GET_stable uuid4 (GET_tasks pid) w). auto.
  - rewrite app_POST_tasks.
    destruct (project_exists _ _) eqn:Hproj; simpl; [|auto].
    apply project_exists_spec in Hproj. split_and!; eauto 10.
  - rewrite (app_GET_stable uuid4 (GET_task tid) w). auto.
  - rewrite app_PUT_task.
    destruct (project_exists _ _) eqn:Hproj; simpl; [|auto].
    apply project_exists_spec in Hproj.
    destruct (list_find _ (tasks w)) as [[i old]|] eqn:Hfind; simpl; [|auto].
    apply list_find_Some in Hfind as (Hi & Hid & _).
    split_and!; [auto..|]. right; right; left. by exists tid, task, i, old.
  - rewrite app_DELETE_task.
    destruct (list_find _ (tasks w)) as [[i old]|]; simpl; [|auto].
    split_and!; [auto..|]. right; right; right. by exists tid, i.
  - rewrite (app_GET_stable uuid4 (GET_projects uid) w). auto.
  - rewrite app_POST_projects.
    destruct (user_exists _ _) eqn:Huser; simpl; [|auto].
    apply user_exists_spec in Huser. split_and!; eauto 10.
  - rewrite (app_GET_stable uuid4 GET_users w). auto.
  - rewrite app_POST_users. simpl. split_and!; eauto.
Qed.

Lemma app_users_prefix uuid4 r w : users w `prefix_of` users (app uuid4 r w).2.
Proof.
  destruct (app_stores uuid4 r w) as ([-> | (user & _ & ->)] & _); [done|].
  by apply prefix_app_r.
Qed.

Lemma app_projects_prefix uuid4 r w :
  projects w `prefix_of` projects (app uuid4 r w).2.
Proof.
  destruct (app_stores uuid4 r w) as (_ & [-> | (project & _ & _ & ->)] & _);
    [done|].
  by apply prefix_app_r.
Qed.

Lemma project_known_mono pid w w' :
  projects w `prefix_of` projects w' → project_known pid w → project_known pid w'.
Proof.
  intros [k Hk] (p & Hin & Hid). exists p. split; [|done].
  rewrite Hk. apply elem_of_app. by left.
Qed.

Lemma user_known_mono uid w w' :
  users w `prefix_of` users w' → user_known uid w → user_known uid w'.
Proof.
  intros [k Hk] (u & Hin & Hid). exists u. split; [|done].
  rewrite Hk. apply elem_of_app. by left.
Qed.

Lemma app_integrity uuid4 r w :
  referential_integrity w → referential_integrity (app uuid4 r w).2.
Proof.
  intros [Htasks Hprojects].
  pose proof (app_users_prefix uuid4 r w) as Hu.
  pose proof (app_projects_prefix uuid4 r w) as Hp.
  destruct (app_stores uuid4 r w) as (_ & Hps & Hts).
  split.
  - intros t Hin. apply (project_known_mono _ w); [done|].
    destruct Hts as [Heq | [(task & _ & Hknown & Heq) |
      [(tid & task & i & old & _ & Hknown & Hi & _ & Heq) | (tid & i & _ & Heq)]]];
      rewrite Heq in Hin.
    + by apply Htasks.
    + apply elem_of_app in Hin as [Hin | Hin]; [by apply Htasks|].
      apply list_elem_of_singleton in Hin as ->. done.
    + apply list_elem_of_lookup in Hin as [j Hj].
      destruct (decide (i = j)) as [<- | Hne].
      * rewrite list_lookup_insert_eq in Hj by by eapply lookup_lt_Some.
        by injection Hj as <-.
      * rewrite list_lookup_insert_ne in Hj by done.
        apply Htasks. by eapply list_elem_of_lookup_2.
    + apply Htasks. by eapply list_elem_of_delete_inv.
  - intros p Hin. apply (user_known_mono _ w); [done|].
    destruct Hps as [Heq | (project & _ & Hknown & Heq)]; rewrite Heq in Hin.
    + by apply Hprojects.
    + apply elem_of_app in Hin as [Hin | Hin]; [by apply Hprojects|].
      apply list_elem_of_singleton in Hin as ->. done.
Qed.

Lemma run_projects_prefix trace w : projects w `prefix_of` projects (run trace w).
Proof.
  revert w. induction trace as [|[uuid4 r] trace IH]; intros w; [done|].
  simpl. etrans; [apply (app_projects_prefix uuid4 r) | apply IH].
Qed.

Lemma init_integrity : referential_integrity init.
Proof. split; intros x Hin; by apply not_elem_of_nil in Hin. Qed.

Lemma run_integrity trace : referential_integrity (run trace init).
Proof.
  apply run_invariant; [apply app_integrity | apply init_integrity].
Qed.

(** C1. In every state reached from the empty stores by any sequence of
    requests, with any [uuid4()] draws, each stored Task's [project_id] is
    the id of a stored Project and each stored Project's [user_id] is the
    id of a stored User. *)
Theorem reachable_referential_integrity (trace : list (UUID * Request)) :
  let w := run trace init in
  (∀ t, t ∈ tasks w → ∃ p, p ∈ projects w ∧ Project.id p = Task.project_id t) ∧
  (∀ p, p ∈ projects w → ∃ u, u ∈ users w ∧ User.id u = Project.user_id p).
Proof. exact (run_integrity trace). Qed.

Lemma reachable_referential_integrity_witness :
  (∃ p, p ∈ projects sample ∧ Project.id p = Task.project_id task_T2) ∧
  (∃ u, u ∈ users sample ∧ User.id u = Project.user_id project_P).
Proof.
  split.
  - apply (proj1 (reachable_referential_integrity scenario) task_T2).
    apply list_elem_of_further, list_elem_of_here.
  - apply (proj2 (reachable_referential_integrity scenario) project_P).
    apply list_elem_of_here.
Defined.

(** ** Creating and listing Projects *)

(** C6. When no stored User has the payload's [user_id], POST /projects
    answers 400, changes no store, and every listing of Projects, filtered
    or not, is what it was before; in a state reached from the empty
    stores no listed Project carries that [user_id], so the rejected
    Project is in none of them. *)
Theorem create_project_unknown_user
    (w : World) (uuid4 u' : UUID) (project : ProjectCreate.t)
    (user_id : option UUID) :
  ¬ user_known (ProjectCreate.user_id project) w →
  let rejected := app uuid4 (POST_projects project) w in
  rejected.1 = inl (mkHTTPException 400 "User does not exist") ∧
  status rejected.1 = 400 ∧
  rejected.2 = w ∧
  app u' (GET_projects user_id) rejected.2 = app u' (GET_projects user_id) w ∧
  ((∃ trace, w = run trace init) →
   ∀ l, (app u' (GET_projects user_id) rejected.2).1 = inr (ProjectsBody l) →
        (∀ p, p ∈ l → Project.user_id p ≠ ProjectCreate.user_id project) ∧
        Project_of uuid4 project ∉ l).
Proof.
  intros Hnone%user_exists_false rejected. subst rejected.
  rewrite app_POST_projects, Hnone. cbn [fst snd]. split_and!; try done.
  intros [trace ->] l Hl.
  assert (Hall : ∀ p, p ∈ l → Project.user_id p ≠ ProjectCreate.user_id project).
  { intros p Hin Heq.
    assert (Hstored : p ∈ projects (run trace init)).
    { rewrite app_GET_projects in Hl. cbn [fst] in Hl.
      injection Hl as <-. destruct user_id; [|done].
      by apply list_elem_of_filter in Hin as [_ ?]. }
    apply (proj2 (run_integrity trace)) in Hstored.
    apply user_exists_false in Hnone. apply Hnone. by rewrite <- Heq. }
  split; [done|]. intros Hin. by apply Hall in Hin.
Qed.

Lemma create_project_unknown_user_witness :
  let rejected := app (v4 5) (POST_projects (ProjectCreate.mk "Q" (v4 9))) sample in
  rejected.1 = inl (mkHTTPException 400 "User does not exist") ∧
  status rejected.1 = 400 ∧
  rejected.2 = sample ∧
  app (v4 6) (GET_projects None) rejected.2 = app (v4 6) (GET_projects None) sample ∧
  (∀ p, p ∈ [project_P] → Project.user_id p ≠ v4 9) ∧
  Project.mk "Q" (v4 9) (v4 5) ∉ [project_P].
Proof.
  destruct (create_project_unknown_user sample (v4 5) (v4 6)
              (ProjectCreate.mk "Q" (v4 9)) None)
    as (Hresp & Hstatus & Hstate & Hlist & Hreach).
  - intros (u & Hin & Hid). simpl in Hin.
    apply elem_of_cons in Hin as [-> | Hin]; [revert Hid; uuid_neq|].
    by apply not_elem_of_nil in Hin.
  - split_and!; [exact Hresp | exact Hstatus | exact Hstate | exact Hlist | |].
    + apply (Hreach (ex_intro _ scenario eq_refl) [project_P] eq_refl).
    + apply (Hreach (ex_intro _ scenario eq_refl) [project_P] eq_refl).
Defined.

(** C7. When a stored User has the payload's [user_id], POST /projects
    answers 200 with the new Project and appends it; the listing filtered
    by that [user_id] is then the full listing restricted to the Projects
    with that [user_id], in the order of the full listing, and the new
    Project is last in both. *)
Theorem create_project_known_user
    (w : World) (uuid4 u' u'' : UUID) (project : ProjectCreate.t) :
  user_known (ProjectCreate.user_id project) w →
  let uid := ProjectCreate.user_id project in
  let new := Project_of uuid4 project in
  let created := app uuid4 (POST_projects project) w in
  created.1 = inr (ProjectBody new) ∧
  status created.1 = 200 ∧
  created.2 = mkWorld (tasks w) (projects w ++ [new]) (users w) ∧
  ∃ full filtered,
    app u' (GET_projects None) created.2 = (inr (ProjectsBody full), created.2) ∧
    app u'' (GET_projects (Some uid)) created.2 =
      (inr (ProjectsBody filtered), created.2) ∧
    full = projects w ++ [new] ∧
    filtered = filter (λ p, Project.user_id p = uid) full ∧
    filtered = filter (λ p, Project.user_id p = uid) (projects w) ++ [new] ∧
    filtered `sublist_of` full ∧
    (∀ p, p ∈ filtered ↔ p ∈ full ∧ Project.user_id p = uid) ∧
    (∀ trace, full `prefix_of` projects (run trace created.2)).
Proof.
  intros Hknown%user_exists_spec uid new created. subst created.
  rewrite app_POST_projects, Hknown. cbn [fst snd]. split_and!; try done.
  exists (projects w ++ [new]),
         (filter (λ p, Project.user_id p = uid) (projects w ++ [new])).
  rewrite !app_GET_projects. cbn [projects]. split_and!; try done.
  - rewrite filter_app. f_equal. by rewrite filter_cons_True.
  - apply sublist_filter.
  - intros p. rewrite list_elem_of_filter. tauto.
  - intros trace. apply run_projects_prefix.
Qed.

Lemma create_project_known_user_witness :
  let new := Project.mk "Q" (v4 1) (v4 5) in
  let created := app (v4 5) (POST_projects (ProjectCreate.mk "Q" (v4 1))) sample in
  created.1 = inr (ProjectBody new) ∧
  status created.1 = 200 ∧
  created.2 = mkWorld [task_T; task_T2] [project_P; new] [ann] ∧
  ∃ full filtered,
    app (v4 6) (GET_projects None) created.2 = (inr (ProjectsBody full), created.2) ∧
    app (v4 7) (GET_projects (Some (v4 1))) created.2 =
      (inr (ProjectsBody filtered), created.2) ∧
    full = [project_P; new] ∧
    filtered = filter (λ p, Project.user_id p = v4 1) full ∧
    filtered = filter (λ p, Project.user_id p = v4 1) [project_P] ++ [new] ∧
    filtered `sublist_of` full ∧
    (∀ p, p ∈ filtered ↔ p ∈ full ∧ Project.user_id p = v4 1) ∧
    (∀ trace, full `prefix_of` projects (run trace created.2)).
Proof.
  apply (create_project_known_user sample (v4 5) (v4 6) (v4 7)
           (ProjectCreate.mk "Q" (v4 1))).
  exists ann. split; [apply list_elem_of_here | reflexivity].
Defined.

(** The filter of GET /projects in any state, for any [user_id]. *)
Lemma get_projects_filtered (w : World) (uuid4 uid : UUID) :
  app uuid4 (GET_projects (Some uid)) w =
    (inr (ProjectsBody (filter (λ p, Project.user_id p = uid) (projects w))), w) ∧
  app uuid4 (GET_projects None) w = (inr (ProjectsBody (projects w)), w).
Proof. by rewrite !app_GET_projects. Qed.

(** ** Creating and listing Users *)

Lemma run_users trace w : users (run trace w) = users w ++ created_users trace.
Proof.
  revert w. induction trace as [|[uuid4 r] trace IH]; intros w.
  - simpl. by rewrite app_nil_r.
  - simpl. rewrite IH. unfold created_users. simpl.
    destruct (app_stores uuid4 r w) as ([Heq | (user & -> & Heq)] & _);
      rewrite Heq.
    + destruct r; try done. rewrite app_POST_users in Heq. simpl in Heq.
      apply (f_equal length) in Heq. rewrite length_app in Heq. simpl in Heq. lia.
    + by rewrite <- app_assoc.
Qed.




(** ** Identifiers *)

(** C2 as stated does not hold.  After the scenario, whose four draws are
    pairwise distinct, a PUT to the path of [task_T] with a valid body that
    carries the id of [task_T2] answers 200; the record in the addressed
    slot then has another id than before, two stored Tasks share one id,
    and no Task is found at the path any more. *)
Lemma put_breaks_identifiers :
  let w := run scenario init in
  let put := app (v4 5) (PUT_task (v4 3) body_T2_id) w in
  unique_ids w ∧
  tasks w !! 0 = Some task_T ∧ Task.id task_T = v4 3 ∧
  status put.1 = 200 ∧
  put.2 = clashing ∧
  tasks put.2 !! 0 = Some body_T2_id ∧ Task.id body_T2_id ≠ v4 3 ∧
  ¬ NoDup (Task.id <$> tasks put.2) ∧
  get_task (v4 3) put.2 = (inl (mkHTTPException 404 "Task not found"), put.2).
Proof.
  split_and!; try reflexivity.
  - split_and!; simpl; repeat (apply NoDup_cons; split; [uuid_not_in|]);
      apply NoDup_nil_2.
  - uuid_neq.
  - simpl. intros Hdup. apply NoDup_cons in Hdup as [Hnotin _].
    apply Hnotin, list_elem_of_here.
Qed.

Lemma NoDup_snoc_fresh {A} (l : list A) x : NoDup l → x ∉ l → NoDup (l ++ [x]).
Proof.
  intros Hl Hx. apply NoDup_app. split_and!; [done| |apply NoDup_singleton].
  intros y Hy Hin. apply list_elem_of_singleton in Hin as ->. done.
Qed.

Lemma app_task_ids uuid4 r w :
  keeps_path_id r →
  ids_evolve uuid4 (Task.id <$> tasks w) (Task.id <$> tasks (app uuid4 r w).2).
Proof.
  intros Hkeep.
  destruct (app_stores uuid4 r w) as (_ & _ & [Heq | [(task & _ & _ & Heq) |
    [(tid & task & i & old & -> & _ & Hi & Hid & Heq) | (tid & i & _ & Heq)]]]);
    rewrite Heq.
  - constructor.
  - rewrite fmap_app. simpl. constructor.
  - rewrite list_fmap_insert. simpl in Hkeep. rewrite Hkeep, <- Hid.
    rewrite list_insert_id; [constructor|]. by rewrite list_lookup_fmap, Hi.
  - rewrite list_fmap_delete. constructor.
Qed.

Lemma app_unique_ids uuid4 r w :
  draw_fresh uuid4 r w → keeps_path_id r →
  unique_ids w → unique_ids (app uuid4 r w).2.
Proof.
  intros Hfresh Hkeep (Ht & Hp & Hu).
  destruct (app_stores uuid4 r w) as (Hus & Hps & Hts).
  split_and!.
  - destruct Hts as [-> | [(task & -> & _ & ->) |
      [(tid & task & i & old & -> & _ & Hi & Hid & ->) | (tid & i & _ & ->)]]].
    + done.
    + rewrite fmap_app. by apply NoDup_snoc_fresh.
    + rewrite list_fmap_insert. simpl in Hkeep. rewrite Hkeep, <- Hid.
      rewrite list_insert_id; [done|]. by rewrite list_lookup_fmap, Hi.
    + rewrite list_fmap_delete.
      eapply sublist_NoDup; [exact Ht | apply sublist_delete].
  - destruct Hps as [-> | (project & -> & _ & ->)]; [done|].
    rewrite fmap_app. by apply NoDup_snoc_fresh.
  - destruct Hus as [-> | (user & -> & ->)]; [done|].
    rewrite fmap_app. by apply NoDup_snoc_fresh.
Qed.

Lemma init_unique_ids : unique_ids init.
Proof. split_and!; apply NoDup_nil_2. Qed.

Lemma put_then_get uuid4 task_id task w :
  status (app uuid4 (PUT_task task_id task) w).1 = 200 →
  Task.id task = task_id →
  get_task task_id (app uuid4 (PUT_task task_id task) w).2 =
    (inr task, (app uuid4 (PUT_task task_id task) w).2).
Proof.
  rewrite app_PUT_task. intros Hok Hid.
  destruct (project_exists _ _); [|done].
  destruct (list_find _ (tasks w)) as [[i old]|] eqn:Hfind; [|done].
  apply list_find_split in Hfind as (pre & post & Hl & <- & Hpre & Hold).
  rewrite get_task_eq. cbn [snd tasks]. rewrite Hl, insert_middle.
  by rewrite (list_find_middle (λ t, Task.id t = task_id) pre post task).
Qed.

(** C2, amended. Take any sequence of requests, from the empty stores, in
    which every [uuid4()] draw differs from the ids held by the collection
    it is added to and every PUT body carries the id of its path.  Then
    the ids within each collection are pairwise distinct; and any further
    request whose PUT body carries the id of its path keeps every stored
    User and Project, changes the sequence of stored Task ids at most by
    appending the drawn id or removing one position, keeps the ids
    pairwise distinct when its draw is new to the collection, and after a
    PUT that answers 200 the Task found at [task_id] is the payload, with
    id [task_id]. *)
Theorem disciplined_ids_unique_and_stable (trace : list (UUID * Request)) :
  disciplined trace init →
  let w := run trace init in
  unique_ids w ∧
  ∀ uuid4 r,
    keeps_path_id r →
    let w' := (app uuid4 r w).2 in
    users w `prefix_of` users w' ∧
    projects w `prefix_of` projects w' ∧
    ids_evolve uuid4 (Task.id <$> tasks w) (Task.id <$> tasks w') ∧
    (draw_fresh uuid4 r w → unique_ids w') ∧
    (∀ task_id task,
       r = PUT_task task_id task →
       status (app uuid4 r w).1 = 200 →
       get_task task_id w' = (inr task, w') ∧ Task.id task = task_id).
Proof.
  intros Hd w.
  assert (Hw : unique_ids w).
  { apply (run_disciplined_invariant unique_ids);
      [apply app_unique_ids | done | apply init_unique_ids]. }
  split; [done|]. intros uuid4 r Hkeep w'. subst w'. split_and!.
  - apply app_users_prefix.
  - apply app_projects_prefix.
  - by apply app_task_ids.
  - intros Hfresh. by apply app_unique_ids.
  - intros task_id task -> Hok. split; [|done]. by apply put_then_get.
Qed.

Lemma scenario_disciplined : disciplined scenario init.
Proof. simpl. split_and!; try done; uuid_not_in. Qed.

Lemma disciplined_ids_unique_and_stable_witness :
  unique_ids sample ∧
  get_task (v4 3) (app (v4 5) (PUT_task (v4 3) body_T_done) sample).2 =
    (inr body_T_done, mkWorld [body_T_done; task_T2] [project_P] [ann]).
Proof.
  destruct (disciplined_ids_unique_and_stable scenario scenario_disciplined)
    as [Huniq Hstep].
  split; [exact Huniq|].
  destruct (Hstep (v4 5) (PUT_task (v4 3) body_T_done) eq_refl)
    as (_ & _ & _ & _ & Hput).
  destruct (Hput (v4 3) body_T_done eq_refl eq_refl) as [Hget _].
  exact Hget.
Defined.

(** * Further properties of the handlers *)

(** ** Reads and errors *)

Lemma app_GET_task uuid4 task_id w :
  app uuid4 (GET_task task_id) w =
  match list_find (λ t, Task.id t = task_id) (tasks w) with
  | Some (_, t) => (inr (TaskBody t), w)
  | None => (inl (mkHTTPException 404 "Task not found"), w)
  end.
Proof.
  simpl. unfold respond. rewrite get_task_eq.
  by destruct (list_find _ _) as [[i t]|].
Qed.

Lemma app_GET_tasks uuid4 project_id w :
  app uuid4 (GET_tasks project_id) w =
  (inr (TasksBody
          (match project_id with
           | Some pid => filter (λ t, Task.project_id t = pid) (tasks w)
           | None => tasks w
           end)), w).
Proof. simpl. unfold respond. by rewrite get_tasks_eq. Qed.

(** X1. A request served by a GET route, and any request answered with a
    status other than 200, leaves all three stores exactly as they were. *)
Theorem reads_and_errors_keep_state (uuid4 : UUID) (r : Request) (w : World) :
  reads r = true ∨ status (app uuid4 r w).1 ≠ 200 →
  (app uuid4 r w).2 = w.
Proof.
  intros Hcase.
  destruct r as [pid|task|tid|tid task|tid|uid|project| |user].
  - apply (app_GET_stable uuid4 (GET_tasks pid)).
  - destruct Hcase as [? | Hstatus]; [done|]. revert Hstatus.
    rewrite app_POST_tasks. by destruct (project_exists _ _).
  - apply (app_GET_stable uuid4 (GET_task tid)).
  - destruct Hcase as [? | Hstatus]; [done|]. revert Hstatus.
    rewrite app_PUT_task. destruct (project_exists _ _); [|done].
    by destruct (list_find _ _) as [[i t]|].
  - destruct Hcase as [? | Hstatus]; [done|]. revert Hstatus.
    rewrite app_DELETE_task. by destruct (list_find _ _) as [[i t]|].
  - apply (app_GET_stable uuid4 (GET_projects uid)).
  - destruct Hcase as [? | Hstatus]; [done|]. revert Hstatus.
    rewrite app_POST_projects. by destruct (user_exists _ _).
  - apply (app_GET_stable uuid4 GET_users).
  - destruct Hcase as [? | Hstatus]; [done|]. revert Hstatus.
    by rewrite app_POST_users.
Qed.

Lemma reads_and_errors_keep_state_witness :
  (app (v4 5) (GET_task (v4 3)) sample).2 = sample ∧
  (app (v4 5) (DELETE_task (v4 7)) sample).2 = sample.
Proof.
  split.
  - apply (reads_and_errors_keep_state (v4 5) (GET_task (v4 3)) sample).
    left. reflexivity.
  - apply (reads_and_errors_keep_state (v4 5) (DELETE_task (v4 7)) sample).
    right. vm_compute. discriminate.
Defined.

(** X2. The statuses of the handlers, for a request that FastAPI has
    parsed and handed to its handler: the handlers of the three listings
    and of POST /users never raise and so answer 200; those of POST /tasks
    and POST /projects answer 200 or 400; those of GET and DELETE of one
    Task answer 200 or 404; that of PUT answers 200, 400 or 404. *)
Theorem route_statuses (uuid4 : UUID) (r : Request) (w : World) :
  let s := status (app uuid4 r w).1 in
  match r with
  | GET_tasks _ | GET_projects _ | GET_users | POST_users _ => s = 200
  | POST_tasks _ | POST_projects _ => s = 200 ∨ s = 400
  | GET_task _ | DELETE_task _ => s = 200 ∨ s = 404
  | PUT_task _ _ => s = 200 ∨ s = 400 ∨ s = 404
  end.
Proof.
  destruct r as [pid|task|tid|tid task|tid|uid|project| |user]; intros s; subst s.
  - by rewrite app_GET_tasks.
  - rewrite app_POST_tasks. destruct (project_exists _ _); auto.
  - rewrite app_GET_task. destruct (list_find _ _) as [[i t]|]; auto.
  - rewrite app_PUT_task. destruct (project_exists _ _); [|auto].
    destruct (list_find _ _) as [[i t]|]; auto.
  - rewrite app_DELETE_task. destruct (list_find _ _) as [[i t]|]; auto.
  - by rewrite app_GET_projects.
  - rewrite app_POST_projects. destruct (user_exists _ _); auto.
  - done.
  - by rewrite app_POST_users.
Qed.

(** X3. The number of stored Tasks: a POST /tasks answered 200 adds one, a
    DELETE answered 200 removes one, and every other request, a PUT
    included, leaves the number as it was. *)
Theorem task_count (uuid4 : UUID) (r : Request) (w : World) :
  let n := length (tasks w) in
  let n' := length (tasks (app uuid4 r w).2) in
  let s := status (app uuid4 r w).1 in
  match r with
  | POST_tasks _ => if decide (s = 200) then n' = S n else n' = n
  | DELETE_task _ => if decide (s = 200) then S n' = n else n' = n
  | _ => n' = n
  end.
Proof.
  destruct r as [pid|task|tid|tid task|tid|uid|project| |user];
    intros n n' s; subst n n' s.
  - by rewrite app_GET_tasks.
  - rewrite app_POST_tasks. destruct (project_exists _ _); simpl; [|done].
    rewrite length_app. simpl. lia.
  - rewrite app_GET_task. by destruct (list_find _ _) as [[i t]|].
  - rewrite app_PUT_task. destruct (project_exists _ _); [|done].
    destruct (list_find _ _) as [[i t]|]; [|done].
    simpl. apply length_insert.
  - rewrite app_DELETE_task.
    destruct (list_find _ _) as [[i t]|] eqn:Hfind; simpl; [|done].
    apply list_find_Some in Hfind as (Hi & _ & _).
    apply lookup_lt_Some in Hi. rewrite length_delete by eauto using lookup_lt_is_Some_2.
    lia.
  - by rewrite app_GET_projects.
  - rewrite app_POST_projects. by destruct (user_exists _ _).
  - done.
  - by rewrite app_POST_users.
Qed.

(** ** Looking a Task up *)

Lemma same_id_same_slot {A} (f : A → UUID) (l : list A) x y :
  NoDup (f <$> l) → x ∈ l → y ∈ l → f x = f y → x = y.
Proof.
  intros Hnodup [i Hi]%list_elem_of_lookup [j Hj]%list_elem_of_lookup Heq.
  assert (Hfi : (f <$> l) !! i = Some (f x)) by by rewrite list_lookup_fmap, Hi.
  assert (Hfj : (f <$> l) !! j = Some (f x)) by by rewrite list_lookup_fmap, Hj, Heq.
  pose proof (NoDup_lookup _ _ _ _ Hnodup Hfi Hfj) as ->.
  congruence.
Qed.

(** X4. GET /tasks/{task_id} answers 404 exactly when no stored Task has
    that id.  A Task it returns has id [task_id] and is the first such Task
    of the store; when the stored ids are pairwise distinct, it returns
    whichever stored Task has that id. *)
Theorem get_task_lookup (uuid4 task_id : UUID) (w : World) :
  ((app uuid4 (GET_task task_id) w).1 =
     inl (mkHTTPException 404 "Task not found") ↔ ¬ task_known task_id w) ∧
  (∀ t, (app uuid4 (GET_task task_id) w).1 = inr (TaskBody t) →
        Task.id t = task_id ∧
        ∃ i, tasks w !! i = Some t ∧
             ∀ j t', tasks w !! j = Some t' → j < i → Task.id t' ≠ task_id) ∧
  (NoDup (Task.id <$> tasks w) →
   ∀ t, t ∈ tasks w → Task.id t = task_id →
        (app uuid4 (GET_task task_id) w).1 = inr (TaskBody t)).
Proof.
  rewrite app_GET_task.
  destruct (list_find _ (tasks w)) as [[i found]|] eqn:Hfind.
  - pose proof Hfind as (Hi & Hid & Hbefore)%list_find_Some.
    assert (Hin : found ∈ tasks w) by by eapply list_elem_of_lookup_2.
    split_and!.
    + split; [done|]. intros Hnone. destruct Hnone. by exists found.
    + intros t [= <-]. split; [done|]. by exists i.
    + intros Hnodup t Ht Htid. simpl. do 2 f_equal.
      apply (same_id_same_slot Task.id (tasks w)); [done..|]. congruence.
  - apply list_find_None in Hfind. split_and!.
    + split; [|done]. intros _ (t & Hin & Hid).
      by apply (proj1 (Forall_forall _ _) Hfind t).
    + done.
    + intros _ t Hin Hid. by apply (proj1 (Forall_forall _ _) Hfind t) in Hid.
Qed.

Lemma sample_unique_ids : unique_ids sample.
Proof.
  split_and!; simpl; repeat (apply NoDup_cons; split; [uuid_not_in|]);
    apply NoDup_nil_2.
Qed.

Lemma get_task_lookup_witness :
  (app (v4 5) (GET_task (v4 7)) sample).1 =
    inl (mkHTTPException 404 "Task not found") ∧
  (app (v4 5) (GET_task (v4 4)) sample).1 = inr (TaskBody task_T2).
Proof.
  split.
  - apply (proj1 (get_task_lookup (v4 5) (v4 7) sample)).
    exact sample_task_unknown.
  - apply (proj2 (proj2 (get_task_lookup (v4 5) (v4 4) sample))).
    + exact (proj1 sample_unique_ids).
    + apply list_elem_of_further, list_elem_of_here.
    + reflexivity.
Defined.

(** X5. GET /tasks answers with the store itself, every Task in stored
    order; GET /tasks?project_id=p answers with that listing restricted to
    the Tasks whose [project_id] is p, in the same order; and a Task that
    GET /tasks/{task_id} returns is in the full listing and in the listing
    filtered by its own [project_id]. *)
Theorem get_tasks_listing (u1 u2 u3 pid task_id : UUID) (w : World) :
  ∃ full filtered,
    app u1 (GET_tasks None) w = (inr (TasksBody full), w) ∧
    app u2 (GET_tasks (Some pid)) w = (inr (TasksBody filtered), w) ∧
    full = tasks w ∧
    filtered = filter (λ t, Task.project_id t = pid) full ∧
    filtered `sublist_of` full ∧
    (∀ t, t ∈ filtered ↔ t ∈ full ∧ Task.project_id t = pid) ∧
    (∀ t, (app u3 (GET_task task_id) w).1 = inr (TaskBody t) →
          t ∈ full ∧ (Task.project_id t = pid → t ∈ filtered)).
Proof.
  exists (tasks w), (filter (λ t, Task.project_id t = pid) (tasks w)).
  rewrite !app_GET_tasks, app_GET_task. split_and!; try done.
  - apply sublist_filter.
  - intros t. rewrite list_elem_of_filter. tauto.
  - intros t Hget.
    destruct (list_find _ (tasks w)) as [[i found]|] eqn:Hfind; [|done].
    injection Hget as ->.
    apply list_find_Some in Hfind as (Hi & _ & _).
    assert (Hin : t ∈ tasks w) by by eapply list_elem_of_lookup_2.
    split; [done|]. intros Hpid. by apply list_elem_of_filter.
Qed.

Lemma get_tasks_listing_witness :
  app (v4 5) (GET_tasks None) mixed =
    (inr (TasksBody [task_T; task_U; task_T2]), mixed) ∧
  app (v4 6) (GET_tasks (Some (v4 2))) mixed =
    (inr (TasksBody [task_T; task_T2]), mixed) ∧
  task_T2 ∈ [task_T; task_T2].
Proof.
  destruct (get_tasks_listing (v4 5) (v4 6) (v4 8) (v4 2) (v4 4) mixed)
    as (full & filtered & Hfull & Hfiltered & -> & -> & _ & _ & Hget).
  split_and!; [exact Hfull | exact Hfiltered |].
  apply (Hget task_T2 eq_refl). reflexivity.
Defined.

(** ** Creating a Task and what follows *)

Lemma find_appended (l : list Task.t) (t : Task.t) :
  Task.id t ∉ Task.id <$> l →
  list_find (λ x, Task.id x = Task.id t) (l ++ [t]) = Some (length l, t).
Proof.
  intros Hfresh. apply list_find_middle; [|done].
  apply Forall_forall. intros x Hin Hid. apply Hfresh.
  rewrite <- Hid. by apply list_elem_of_fmap_2.
Qed.

(** X6. After POST /tasks has created a Task under a drawn id that no
    stored Task had, GET /tasks/{that id} returns the created Task, and
    the listing filtered by its [project_id] is the earlier filtered
    listing followed by it. *)
Theorem create_task_then_get (uuid4 u1 u2 : UUID) (body : TaskCreate.t) (w : World) :
  project_known (TaskCreate.project_id body) w →
  uuid4 ∉ Task.id <$> tasks w →
  let created := app uuid4 (POST_tasks body) w in
  created.1 = inr (TaskBody (Task_of uuid4 body)) ∧
  app u1 (GET_task uuid4) created.2 =
    (inr (TaskBody (Task_of uuid4 body)), created.2) ∧
  app u2 (GET_tasks (Some (TaskCreate.project_id body))) created.2 =
    (inr (TasksBody
            (filter (λ t, Task.project_id t = TaskCreate.project_id body) (tasks w)
             ++ [Task_of uuid4 body])), created.2).
Proof.
  intros Hproj%project_exists_spec Hfresh created. subst created.
  rewrite app_POST_tasks, Hproj. cbn [fst snd]. split; [done|].
  rewrite app_GET_task, app_GET_tasks. cbn [tasks].
  pose proof (find_appended (tasks w) (Task_of uuid4 body) Hfresh) as Hfind.
  change (Task.id (Task_of uuid4 body)) with uuid4 in Hfind. split.
  - by rewrite Hfind.
  - rewrite filter_app. by rewrite filter_cons_True.
Qed.

Lemma create_task_then_get_witness :
  let created := app (v4 5) (POST_tasks payload_T3) sample in
  created.1 = inr (TaskBody (Task_of (v4 5) payload_T3)) ∧
  app (v4 6) (GET_task (v4 5)) created.2 =
    (inr (TaskBody (Task_of (v4 5) payload_T3)), created.2) ∧
  app (v4 7) (GET_tasks (Some (v4 2))) created.2 =
    (inr (TasksBody
            (filter (λ t, Task.project_id t = v4 2) (tasks sample)
             ++ [Task_of (v4 5) payload_T3])), created.2).
Proof.
  apply (create_task_then_get (v4 5) (v4 6) (v4 7) payload_T3 sample).
  - exact sample_project_known.
  - simpl. uuid_not_in.
Defined.

(** X7. Creating a Task under a drawn id that no stored Task had and then
    deleting that id answers 200 and puts every store back as it was
    before the creation. *)
Theorem create_task_then_delete (uuid4 u1 : UUID) (body : TaskCreate.t) (w : World) :
  project_known (TaskCreate.project_id body) w →
  uuid4 ∉ Task.id <$> tasks w →
  app u1 (DELETE_task uuid4) (app uuid4 (POST_tasks body) w).2 =
    (inr (MessageBody "Task deleted"), w).
Proof.
  intros Hproj%project_exists_spec Hfresh.
  rewrite app_POST_tasks, Hproj. cbn [snd].
  rewrite app_DELETE_task. cbn [tasks projects users].
  pose proof (find_appended (tasks w) (Task_of uuid4 body) Hfresh) as Hfind.
  change (Task.id (Task_of uuid4 body)) with uuid4 in Hfind. rewrite Hfind.
  rewrite delete_middle, app_nil_r. by destruct w.
Qed.

Lemma create_task_then_delete_witness :
  app (v4 6) (DELETE_task (v4 5)) (app (v4 5) (POST_tasks payload_T3) sample).2 =
    (inr (MessageBody "Task deleted"), sample).
Proof.
  apply (create_task_then_delete (v4 5) (v4 6) payload_T3 sample).
  - exact sample_project_known.
  - simpl. uuid_not_in.
Defined.

(** ** Replacing a Task, again *)

(** X8. PUT is idempotent when the body carries the id of its path: sent a
    second time, it gives the same answer and leaves the state the first
    one left. *)
Theorem put_idempotent (u1 u2 task_id : UUID) (task : Task.t) (w : World) :
  Task.id task = task_id →
  app u2 (PUT_task task_id task) (app u1 (PUT_task task_id task) w).2 =
  app u1 (PUT_task task_id task) w.
Proof.
  intros Hid. rewrite (app_PUT_task u1).
  destruct (project_exists _ (projects w)) eqn:Hproj; cbn [snd].
  - destruct (list_find _ (tasks w)) as [[i old]|] eqn:Hfind; cbn [snd].
    + apply list_find_split in Hfind as (pre & post & Hl & <- & Hpre & Hold).
      rewrite app_PUT_task. cbn [tasks projects users]. rewrite Hproj.
      rewrite Hl, insert_middle.
      rewrite (list_find_middle (λ t, Task.id t = task_id) pre post task) by done.
      by rewrite insert_middle.
    + by rewrite app_PUT_task, Hproj, Hfind.
  - by rewrite app_PUT_task, Hproj.
Qed.

Lemma put_idempotent_witness :
  app (v4 6) (PUT_task (v4 3) body_T_done)
      (app (v4 5) (PUT_task (v4 3) body_T_done) sample).2 =
  app (v4 5) (PUT_task (v4 3) body_T_done) sample.
Proof.
  apply (put_idempotent (v4 5) (v4 6) (v4 3) body_T_done sample). reflexivity.
Defined.

(** X9. In a state reached from the empty stores, sending back with PUT the
    Task that GET /tasks/{task_id} returned answers 200 with that Task and
    changes nothing. *)
Theorem get_then_put_back
    (trace : list (UUID * Request)) (u1 u2 task_id : UUID) (t : Task.t) :
  let w := run trace init in
  (app u1 (GET_task task_id) w).1 = inr (TaskBody t) →
  app u2 (PUT_task task_id t) w = (inr (TaskBody t), w).
Proof.
  intros w.
  pose proof (run_integrity trace : referential_integrity w) as [Hint _].
  clearbody w. rewrite app_GET_task, app_PUT_task.
  destruct (list_find _ (tasks w)) as [[i found]|] eqn:Hfind; [|done].
  intros [= ->].
  apply list_find_Some in Hfind as (Hi & _ & _).
  assert (Hin : t ∈ tasks w) by by eapply list_elem_of_lookup_2.
  apply Hint, project_exists_spec in Hin.
  rewrite Hin, list_insert_id by done. by destruct w.
Qed.

Lemma get_then_put_back_witness :
  app (v4 6) (PUT_task (v4 4) task_T2) sample = (inr (TaskBody task_T2), sample).
Proof.
  apply (get_then_put_back scenario (v4 5) (v4 6) (v4 4) task_T2). reflexivity.
Defined.

(** X10. In a state reached from the empty stores, the listing of Tasks
    filtered by a [project_id] that no stored Project has is empty. *)
Theorem unknown_project_lists_nothing
    (trace : list (UUID * Request)) (uuid4 pid : UUID) :
  let w := run trace init in
  ¬ project_known pid w →
  app uuid4 (GET_tasks (Some pid)) w = (inr (TasksBody []), w).
Proof.
  intros w.
  pose proof (run_integrity trace : referential_integrity w) as [Hint _].
  clearbody w. intros Hnone. rewrite app_GET_tasks.
  rewrite (filter_none (λ t, Task.project_id t = pid) (tasks w)); [done|].
  apply Forall_forall. intros t Hin Hpid. apply Hnone.
  rewrite <- Hpid. by apply Hint.
Qed.

Lemma unknown_project_lists_nothing_witness :
  app (v4 5) (GET_tasks (Some (v4 9))) sample = (inr (TasksBody []), sample).
Proof.
  apply (unknown_project_lists_nothing scenario (v4 5) (v4 9)).
  exact sample_project_unknown.
Defined.

(** ** Users and Projects stay *)

Lemma run_users_prefix trace w : users w `prefix_of` users (run trace w).
Proof. rewrite run_users. by apply prefix_app_r. Qed.

(** X11. No sequence of requests removes or alters a stored User or
    Project: each of the two stores after the run starts with the store
    before it, so an id that names a User or a Project keeps naming one. *)
Theorem users_and_projects_only_grow
    (trace : list (UUID * Request)) (w : World) :
  users w `prefix_of` users (run trace w) ∧
  projects w `prefix_of` projects (run trace w) ∧
  (∀ uid, user_known uid w → user_known uid (run trace w)) ∧
  (∀ pid, project_known pid w → project_known pid (run trace w)).
Proof.
  pose proof (run_users_prefix trace w) as Hu.
  pose proof (run_projects_prefix trace w) as Hp.
  split_and!; [done..| |].
  - intros uid. by apply user_known_mono.
  - intros pid. by apply project_known_mono.
Qed.

Lemma users_and_projects_only_grow_witness :
  user_known (v4 1) (run [(v4 5, DELETE_task (v4 3))] sample) ∧
  project_known (v4 2) (run [(v4 5, DELETE_task (v4 3))] sample).
Proof.
  destruct (users_and_projects_only_grow [(v4 5, DELETE_task (v4 3))] sample)
    as (_ & _ & Hu & Hp).
  split.
  - apply Hu. exists ann. split; [apply list_elem_of_here | reflexivity].
  - apply Hp. exact sample_project_known.
Defined.

(** X12. What was created can be referred to from then on: after POST
    /users under a drawn id and any further requests, POST /projects with
    that [user_id] answers 200; after a POST /projects answered 200 under a
    drawn id and any further requests, POST /tasks with that [project_id]
    answers 200. *)
Theorem created_entities_stay_referable
    (w : World) (uuid4 u' : UUID) (trace : list (UUID * Request))
    (user : UserCreate.t) (project : ProjectCreate.t) (body : TaskCreate.t) :
  (ProjectCreate.user_id project = uuid4 →
   status (app u' (POST_projects project)
             (run trace (app uuid4 (POST_users user) w).2)).1 = 200) ∧
  (status (app uuid4 (POST_projects project) w).1 = 200 →
   TaskCreate.project_id body = uuid4 →
   status (app u' (POST_tasks body)
             (run trace (app uuid4 (POST_projects project) w).2)).1 = 200).
Proof.
  split.
  - intros Huid. rewrite app_POST_projects.
    set (w' := run trace _).
    assert (Hknown : user_known (ProjectCreate.user_id project) w').
    { apply (user_known_mono _ (app uuid4 (POST_users user) w).2);
        [apply run_users_prefix|].
      rewrite app_POST_users. exists (User_of uuid4 user). split; [|done].
      cbn [snd users]. apply elem_of_app. right. apply list_elem_of_here. }
    apply user_exists_spec in Hknown. by rewrite Hknown.
  - intros Hok Hpid. rewrite (app_POST_tasks u').
    set (w' := run trace _).
    assert (Hknown : project_known (TaskCreate.project_id body) w').
    { apply (project_known_mono _ (app uuid4 (POST_projects project) w).2);
        [apply run_projects_prefix|].
      revert Hok. rewrite app_POST_projects.
      destruct (user_exists _ _); [|done]. intros _.
      exists (Project_of uuid4 project). split; [|done].
      cbn [snd projects]. apply elem_of_app. right. apply list_elem_of_here. }
    apply project_exists_spec in Hknown. by rewrite Hknown.
Qed.

Lemma created_entities_stay_referable_witness :
  status (app (v4 7) (POST_projects (ProjectCreate.mk "R" (v4 5)))
            (run [(v4 6, DELETE_task (v4 3))]
                 (app (v4 5) (POST_users (UserCreate.mk "Bob")) sample).2)).1 = 200 ∧
  status (app (v4 7) (POST_tasks (TaskCreate.mk "T4" None false (v4 5)))
            (run [(v4 6, DELETE_task (v4 3))]
                 (app (v4 5) (POST_projects project_Q) sample).2)).1 = 200.
Proof.
  split.
  - apply (proj1 (created_entities_stay_referable sample (v4 5) (v4 7)
                    [(v4 6, DELETE_task (v4 3))] (UserCreate.mk "Bob")
                    (ProjectCreate.mk "R" (v4 5)) payload_T3)).
    reflexivity.
  - apply (proj2 (created_entities_stay_referable sample (v4 5) (v4 7)
                    [(v4 6, DELETE_task (v4 3))] (UserCreate.mk "Bob")
                    project_Q (TaskCreate.mk "T4" None false (v4 5)))).
    + reflexivity.
    + reflexivity.
Defined.

(** ** Other Tasks under DELETE and PUT *)

Section skipping.
Context {A : Type} (P : A → Prop) `{!∀ x, Decision (P x)}.

(** An element the scan passes over does not change what the scan finds. *)
Lemma list_find_skip (pre post : list A) x :
  ¬ P x →
  snd <$> list_find P (pre ++ x :: post) = snd <$> list_find P (pre ++ post).
Proof.
  intros Hx. induction pre as [|y pre IH]; simpl.
  - rewrite decide_False by done. by destruct (list_find P post) as [[i z]|].
  - destruct (decide (P y)); [done|].
    destruct (list_find P (pre ++ x :: post)) as [[i z]|],
             (list_find P (pre ++ post)) as [[j z']|]; simpl in *; congruence.
Qed.

Lemma filter_all (l : list A) : Forall P l → filter P l = l.
Proof.
  induction 1 as [|y l Hy _ IH]; [done|].
  by rewrite filter_cons_True, IH.
Qed.
End skipping.

Lemma app_GET_task_found uuid4 task_id w :
  (app uuid4 (GET_task task_id) w).1 =
  match snd <$> list_find (λ t, Task.id t = task_id) (tasks w) with
  | Some t => inr (TaskBody t)
  | None => inl (mkHTTPException 404 "Task not found")
  end.
Proof. rewrite app_GET_task. by destruct (list_find _ _) as [[i t]|]. Qed.

(** X13. DELETE /tasks/{task_id} does not change what GET answers for any
    other id, and PUT /tasks/{task_id} does not change what GET answers for
    any id other than [task_id] and the id in the body. *)
Theorem other_tasks_answer_the_same
    (u1 u2 task_id other : UUID) (payload : Task.t) (w : World) :
  other ≠ task_id →
  (app u2 (GET_task other) (app u1 (DELETE_task task_id) w).2).1 =
    (app u2 (GET_task other) w).1 ∧
  (other ≠ Task.id payload →
   (app u2 (GET_task other) (app u1 (PUT_task task_id payload) w).2).1 =
     (app u2 (GET_task other) w).1).
Proof.
  intros Hother. rewrite !app_GET_task_found.
  rewrite app_DELETE_task, app_PUT_task.
  destruct (list_find (λ t, Task.id t = task_id) (tasks w))
    as [[i old]|] eqn:Hfind.
  - apply list_find_split in Hfind as (pre & post & Hl & <- & _ & Hold).
    assert (Hskip : ¬ Task.id old = other) by congruence.
    split.
    + cbn [snd tasks]. rewrite Hl, delete_middle.
      by rewrite (list_find_skip (λ t, Task.id t = other) pre post old).
    + intros Hbody. destruct (project_exists _ _); [|done].
      cbn [snd tasks]. rewrite Hl, insert_middle.
      rewrite (list_find_skip (λ t, Task.id t = other) pre post old) by done.
      rewrite (list_find_skip (λ t, Task.id t = other) pre post payload);
        [done | congruence].
  - split; [done|]. intros _. by destruct (project_exists _ _).
Qed.

Lemma other_tasks_answer_the_same_witness :
  (app (v4 6) (GET_task (v4 4)) (app (v4 5) (DELETE_task (v4 3)) sample).2).1 =
    (app (v4 6) (GET_task (v4 4)) sample).1 ∧
  (app (v4 6) (GET_task (v4 4)) (app (v4 5) (PUT_task (v4 3) body_T_done) sample).2).1 =
    (app (v4 6) (GET_task (v4 4)) sample).1.
Proof.
  assert (Hne : v4 4 ≠ v4 3) by uuid_neq.
  destruct (other_tasks_answer_the_same (v4 5) (v4 6) (v4 3) (v4 4)
              body_T_done sample Hne) as [Hdel Hput].
  split; [exact Hdel|]. apply Hput. exact Hne.
Defined.

(** X14. In a state whose Task ids are pairwise distinct and that holds a
    Task with id [task_id]: DELETE /tasks/{task_id} answers 200 and leaves
    exactly the Tasks with another id, in their order; a PUT naming a
    stored Project answers 200 and leaves every Task with another id in
    place, with the payload where the Task with id [task_id] was. *)
Theorem unique_ids_delete_and_put
    (u1 u2 task_id : UUID) (payload : Task.t) (w : World) :
  NoDup (Task.id <$> tasks w) →
  task_known task_id w →
  app u1 (DELETE_task task_id) w =
    (inr (MessageBody "Task deleted"),
     mkWorld (filter (λ t, Task.id t ≠ task_id) (tasks w)) (projects w) (users w)) ∧
  (project_known (Task.project_id payload) w →
   app u2 (PUT_task task_id payload) w =
     (inr (TaskBody payload),
      mkWorld ((λ t, if decide (Task.id t = task_id) then payload else t) <$> tasks w)
              (projects w) (users w))).
Proof.
  intros Hnodup (t & Hin & Hid).
  destruct (list_find_elem_of (λ x, Task.id x = task_id) (tasks w) t Hin Hid)
    as [[i old] Hfind].
  rewrite app_DELETE_task, app_PUT_task, Hfind.
  apply list_find_split in Hfind as (pre & post & Hl & <- & Hpre & Hold).
  rewrite Hl in Hnodup |- *. rewrite delete_middle, insert_middle.
  rewrite fmap_app, fmap_cons in Hnodup.
  apply NoDup_app in Hnodup as (_ & _ & Hrest).
  apply NoDup_cons in Hrest as [Hnotin _].
  assert (Hpost : Forall (λ x, Task.id x ≠ task_id) post).
  { apply Forall_forall. intros x Hx Hxid. apply Hnotin.
    rewrite Hold, <- Hxid. by apply list_elem_of_fmap_2. }
  split.
  - do 2 f_equal. rewrite filter_app, filter_cons_False by (intros Hne; done).
    by rewrite !(filter_all (λ x, Task.id x ≠ task_id)).
  - intros Hproj%project_exists_spec. rewrite Hproj. do 2 f_equal.
    rewrite fmap_app, fmap_cons, decide_True by done.
    assert (Hsame : ∀ l : list Task.t,
      Forall (λ x, Task.id x ≠ task_id) l →
      (λ t, if decide (Task.id t = task_id) then payload else t) <$> l = l).
    { induction 1 as [|y l Hy _ IH]; [done|].
      rewrite fmap_cons, IH. by rewrite decide_False. }
    by rewrite !Hsame.
Qed.

Lemma unique_ids_delete_and_put_witness :
  app (v4 5) (DELETE_task (v4 3)) sample =
    (inr (MessageBody "Task deleted"),
     mkWorld (filter (λ t, Task.id t ≠ v4 3) (tasks sample))
             (projects sample) (users sample)) ∧
  app (v4 6) (PUT_task (v4 3) body_T_done) sample =
    (inr (TaskBody body_T_done),
     mkWorld ((λ t, if decide (Task.id t = v4 3) then body_T_done else t)
                <$> tasks sample)
             (projects sample) (users sample)).
Proof.
  destruct (unique_ids_delete_and_put (v4 5) (v4 6) (v4 3) body_T_done sample
              (proj1 sample_unique_ids) sample_task_known) as [Hdel Hput].
  split; [exact Hdel|]. apply Hput. exact sample_project_known.
Defined.

(** X15. In a state reached from the empty stores, the listing of Projects
    filtered by a [user_id] that no stored User has is empty. *)
Theorem unknown_user_lists_nothing
    (trace : list (UUID * Request)) (uuid4 uid : UUID) :
  let w := run trace init in
  ¬ user_known uid w →
  app uuid4 (GET_projects (Some uid)) w = (inr (ProjectsBody []), w).
Proof.
  intros w.
  pose proof (run_integrity trace : referential_integrity w) as [_ Hint].
  clearbody w. intros Hnone. rewrite app_GET_projects.
  rewrite (filter_none (λ p, Project.user_id p = uid) (projects w)); [done|].
  apply Forall_forall. intros p Hin Huid. apply Hnone.
  rewrite <- Huid. by apply Hint.
Qed.

Lemma unknown_user_lists_nothing_witness :
  app (v4 5) (GET_projects (Some (v4 9))) sample = (inr (ProjectsBody []), sample).
Proof.
  apply (unknown_user_lists_nothing scenario (v4 5) (v4 9)).
  intros (u & Hin & Hid). simpl in Hin.
  apply elem_of_cons in Hin as [-> | Hin]; [revert Hid; uuid_neq|].
  by apply not_elem_of_nil in Hin.
Defined.
